(** * Relation metadata of the ORM: a shallow embedding of
      [src/metadata/RelationMetadata.ts] and of the declaration produced by
      [src/decorator/tree/TreeParent.ts].

    The TypeScript class is translated member by member.  JavaScript values
    whose dynamic type matters (the results of [&&] / [||] chains, the result
    of an inverse-side resolver) are kept as [JsValue]s together with the
    language's [ToBoolean]; optional fields are [option]s, [None] standing for
    [undefined]; a property read on [undefined] is the exception [TypeError].
    Entity descriptors reference each other cyclically, so they live in a
    registry and a relation holds the key of its entities. *)

From stdpp Require Import gmap strings list fin_maps.
From Stdlib Require Import Ascii String.

Open Scope string_scope.

(** ** JavaScript strings *)

(** [String.prototype.toLowerCase] on the ASCII letters; every other byte is
    left as it is (no character outside ASCII lower-cases to one of the
    letters of ["promise"], the only string the result is compared with). *)
Definition toLowerCase_ascii (c : ascii) : ascii :=
  let n := nat_of_ascii c in
  if (65 <=? n)%nat && (n <=? 90)%nat then ascii_of_nat (n + 32) else c.

Fixpoint toLowerCase (s : string) : string :=
  match s with
  | EmptyString => EmptyString
  | String c s' => String (toLowerCase_ascii c) (toLowerCase s')
  end.

(** Truthiness of a value of type [string | undefined]. *)
Definition truthy_string (o : option string) : bool :=
  match o with
  | Some s => negb (s =? "")
  | None => false
  end.

(** ** Collaborator types (imports of RelationMetadata.ts) *)

(** [types/RelationTypes]: the four relation kinds. *)
Inductive RelationType := ONE_TO_ONE | ONE_TO_MANY | MANY_TO_ONE | MANY_TO_MANY.

#[global] Instance RelationType_eq_dec : EqDecision RelationType.
Proof. solve_decision. Defined.

(** Modelled from the spec: the referential action of [ForeignKeyMetadata],
    an optional attribute copied at construction; its values are string
    literals, none of them empty. *)
Inductive OnDeleteType := RESTRICT | CASCADE | SET_NULL.

(** Modelled from the spec: a column descriptor, of which the relation reads
    the name and the property name. *)
Module ColumnMetadata.
Record t := mk { name : option string; propertyName : string }.
End ColumnMetadata.

(** Modelled from the spec: the join-column descriptor, "column name (possibly
    customized), reference to the column on the related entity it points
    to". *)
Module JoinColumnMetadata.
Record t := mk { name : option string;
                 referencedColumn : option ColumnMetadata.t }.
End JoinColumnMetadata.

(** Modelled from the spec: the join-table descriptor; its shape is an
    external concern, the relation only tests its presence. *)
Module JoinTableMetadata.
Record t := mk { name : option string }.
End JoinTableMetadata.

(** Modelled from the spec: the naming strategy, "pure function(s) mapping a
    property name, or an explicitly customized name, to a physical column
    name". *)
Module NamingStrategyInterface.
Record t := mk { relationName : string -> string;
                 relationNameCustomized : string -> string }.
End NamingStrategyInterface.

(** The reflected type of the property ([design:type]): a constructor
    function, of which only the name is read. *)
Module ReflectedType.
Record t := mk { name : option string }.
End ReflectedType.

(** ** JavaScript values *)

Inductive JsValue :=
| JsUndefined
| JsBoolean (b : bool)
| JsString (s : string)
| JsJoinTable (o : JoinTableMetadata.t)
| JsJoinColumn (o : JoinColumnMetadata.t).

Definition ToBoolean (v : JsValue) : bool :=
  match v with
  | JsUndefined => false
  | JsBoolean b => b
  | JsString s => negb (s =? "")
  | JsJoinTable _ | JsJoinColumn _ => true
  end.

(** [a && b] and [a || b]: the operand that decides the result is the
    result. *)
Definition js_and (a b : JsValue) : JsValue := if ToBoolean a then b else a.
Definition js_or (a b : JsValue) : JsValue := if ToBoolean a then a else b.

(** The string a value contributes to a template literal. *)
Definition ToString (v : JsValue) : string :=
  match v with
  | JsUndefined => "undefined"
  | JsBoolean true => "true"
  | JsBoolean false => "false"
  | JsString s => s
  | JsJoinTable _ | JsJoinColumn _ => "[object Object]"
  end.

(** [x === s] for a string [s]. *)
Definition strict_equals_string (x : JsValue) (s : string) : bool :=
  match x with
  | JsString t => t =? s
  | _ => false
  end.

(** ** Completions: a getter returns normally or throws *)

Inductive Exception :=
| Error (message : string)
| TypeError.

Inductive Completion (A : Type) :=
| Normal (a : A)
| Throw (e : Exception).
Arguments Normal {A} a.
Arguments Throw {A} e.

#[global] Instance Completion_ret : MRet Completion := @Normal.
#[global] Instance Completion_bind : MBind Completion :=
  fun A B f m => match m with Normal a => f a | Throw e => Throw e end.

(** ** The relation declaration *)

(** A class of the data model, by its identity. *)
Definition Class := string.

Definition RelationTypeInFunction := unit -> Class.

(** A map from each property of an entity to its name, as
    [createPropertiesMap] builds it. *)
Abbreviation PropertiesMap := (gmap string string).

(** [PropertyTypeInFunction<T> = string | ((t: T) => string|any)]. *)
Inductive PropertyTypeInFunction :=
| Literal (propertyName : string)
| Resolver (f : PropertiesMap -> JsValue).

(** Modelled from the spec: the options bundle, "with the recognized keys
    cascadeInsert, cascadeUpdate, cascadeRemove, cascadeAll, nullable,
    oldColumnName, onDelete", each of them optional. *)
Module RelationOptions.
Record t := mk {
  cascadeInsert : option bool;
  cascadeUpdate : option bool;
  cascadeRemove : option bool;
  cascadeAll : option bool;
  nullable : option bool;
  oldColumnName : option string;
  onDelete : option OnDeleteType }.

(** [{}], the bundle a decorator called without options passes on. *)
Definition empty : t := mk None None None None None None None.
End RelationOptions.

(** Truthiness of a value of type [boolean | undefined]. *)
Definition truthy_bool (o : option bool) : bool :=
  match o with
  | Some b => b
  | None => false
  end.

(** The fields of [RelationMetadataArgs] that the constructor and the
    decorator use. *)
Module RelationMetadataArgs.
Record t := mk {
  target : Class;
  propertyName : string;
  propertyType : option ReflectedType.t;
  relationType : RelationType;
  type : RelationTypeInFunction;
  inverseSideProperty : option PropertyTypeInFunction;
  isTreeParent : option bool;
  isTreeChildren : option bool;
  options : RelationOptions.t }.
End RelationMetadataArgs.

(** Truthiness of a value of type [PropertyTypeInFunction | undefined]: a
    function is truthy, a string is truthy unless it is empty. *)
Definition truthy_inverseSide (o : option PropertyTypeInFunction) : bool :=
  match o with
  | Some (Literal s) => negb (s =? "")
  | Some (Resolver _) => true
  | None => false
  end.

(** ** RelationMetadata *)

(** A reference to an entity descriptor of the registry. *)
Definition EntityRef := nat.

Record RelationMetadata := {
  (* PropertyMetadata *)
  target : Class;
  propertyName : string;
  (* public properties, attached by the wiring pass *)
  entityMetadata : option EntityRef;
  inverseEntityMetadata : option EntityRef;
  junctionEntityMetadata : option EntityRef;
  joinTable : option JoinTableMetadata.t;
  joinColumn : option JoinColumnMetadata.t;
  (* readonly properties *)
  isTreeParent : bool;
  isTreeChildren : bool;
  relationType : RelationType;
  isCascadeInsert : option bool;
  isCascadeUpdate : option bool;
  isCascadeRemove : option bool;
  isNullable : bool;
  oldColumnName : option string;
  onDelete : option OnDeleteType;
  propertyType : option ReflectedType.t;
  (* private properties *)
  _type : option RelationTypeInFunction;
  _inverseSideProperty : option PropertyTypeInFunction }.

(** Assignments [this.field = v], one per field that the constructor or the
    wiring pass writes. *)
Definition set_entityMetadata v (this : RelationMetadata) : RelationMetadata :=
  {| entityMetadata := v;
     target := target this; propertyName := propertyName this;
     inverseEntityMetadata := inverseEntityMetadata this;
     junctionEntityMetadata := junctionEntityMetadata this;
     joinTable := joinTable this; joinColumn := joinColumn this;
     isTreeParent := isTreeParent this; isTreeChildren := isTreeChildren this;
     relationType := relationType this;
     isCascadeInsert := isCascadeInsert this;
     isCascadeUpdate := isCascadeUpdate this;
     isCascadeRemove := isCascadeRemove this; isNullable := isNullable this;
     oldColumnName := oldColumnName this; onDelete := onDelete this;
     propertyType := propertyType this; _type := _type this;
     _inverseSideProperty := _inverseSideProperty this |}.

Definition set_inverseEntityMetadata v (this : RelationMetadata) : RelationMetadata :=
  {| inverseEntityMetadata := v;
     target := target this; propertyName := propertyName this;
     entityMetadata := entityMetadata this;
     junctionEntityMetadata := junctionEntityMetadata this;
     joinTable := joinTable this; joinColumn := joinColumn this;
     isTreeParent := isTreeParent this; isTreeChildren := isTreeChildren this;
     relationType := relationType this;
     isCascadeInsert := isCascadeInsert this;
     isCascadeUpdate := isCascadeUpdate this;
     isCascadeRemove := isCascadeRemove this; isNullable := isNullable this;
     oldColumnName := oldColumnName this; onDelete := onDelete this;
     propertyType := propertyType this; _type := _type this;
     _inverseSideProperty := _inverseSideProperty this |}.

Definition set_joinTable v (this : RelationMetadata) : RelationMetadata :=
  {| joinTable := v;
     target := target this; propertyName := propertyName this;
     entityMetadata := entityMetadata this;
     inverseEntityMetadata := inverseEntityMetadata this;
     junctionEntityMetadata := junctionEntityMetadata this;
     joinColumn := joinColumn this; isTreeParent := isTreeParent this;
     isTreeChildren := isTreeChildren this; relationType := relationType this;
     isCascadeInsert := isCascadeInsert this;
     isCascadeUpdate := isCascadeUpdate this;
     isCascadeRemove := isCascadeRemove this; isNullable := isNullable this;
     oldColumnName := oldColumnName this; onDelete := onDelete this;
     propertyType := propertyType this; _type := _type this;
     _inverseSideProperty := _inverseSideProperty this |}.

Definition set_joinColumn v (this : RelationMetadata) : RelationMetadata :=
  {| joinColumn := v;
     target := target this; propertyName := propertyName this;
     entityMetadata := entityMetadata this;
     inverseEntityMetadata := inverseEntityMetadata this;
     junctionEntityMetadata := junctionEntityMetadata this;
     joinTable := joinTable this; isTreeParent := isTreeParent this;
     isTreeChildren := isTreeChildren this; relationType := relationType this;
     isCascadeInsert := isCascadeInsert this;
     isCascadeUpdate := isCascadeUpdate this;
     isCascadeRemove := isCascadeRemove this; isNullable := isNullable this;
     oldColumnName := oldColumnName this; onDelete := onDelete this;
     propertyType := propertyType this; _type := _type this;
     _inverseSideProperty := _inverseSideProperty this |}.

Definition set_isTreeParent v (this : RelationMetadata) : RelationMetadata :=
  {| isTreeParent := v;
     target := target this; propertyName := propertyName this;
     entityMetadata := entityMetadata this;
     inverseEntityMetadata := inverseEntityMetadata this;
     junctionEntityMetadata := junctionEntityMetadata this;
     joinTable := joinTable this; joinColumn := joinColumn this;
     isTreeChildren := isTreeChildren this; relationType := relationType this;
     isCascadeInsert := isCascadeInsert this;
     isCascadeUpdate := isCascadeUpdate this;
     isCascadeRemove := isCascadeRemove this; isNullable := isNullable this;
     oldColumnName := oldColumnName this; onDelete := onDelete this;
     propertyType := propertyType this; _type := _type this;
     _inverseSideProperty := _inverseSideProperty this |}.

Definition set_isTreeChildren v (this : RelationMetadata) : RelationMetadata :=
  {| isTreeChildren := v;
     target := target this; propertyName := propertyName this;
     entityMetadata := entityMetadata this;
     inverseEntityMetadata := inverseEntityMetadata this;
     junctionEntityMetadata := junctionEntityMetadata this;
     joinTable := joinTable this; joinColumn := joinColumn this;
     isTreeParent := isTreeParent this; relationType := relationType this;
     isCascadeInsert := isCascadeInsert this;
     isCascadeUpdate := isCascadeUpdate this;
     isCascadeRemove := isCascadeRemove this; isNullable := isNullable this;
     oldColumnName := oldColumnName this; onDelete := onDelete this;
     propertyType := propertyType this; _type := _type this;
     _inverseSideProperty := _inverseSideProperty this |}.

Definition set_isCascadeInsert v (this : RelationMetadata) : RelationMetadata :=
  {| isCascadeInsert := v;
     target := target this; propertyName := propertyName this;
     entityMetadata := entityMetadata this;
     inverseEntityMetadata := inverseEntityMetadata this;
     junctionEntityMetadata := junctionEntityMetadata this;
     joinTable := joinTable this; joinColumn := joinColumn this;
     isTreeParent := isTreeParent this; isTreeChildren := isTreeChildren this;
     relationType := relationType this;
     isCascadeUpdate := isCascadeUpdate this;
     isCascadeRemove := isCascadeRemove this; isNullable := isNullable this;
     oldColumnName := oldColumnName this; onDelete := onDelete this;
     propertyType := propertyType this; _type := _type this;
     _inverseSideProperty := _inverseSideProperty this |}.

Definition set_isCascadeUpdate v (this : RelationMetadata) : RelationMetadata :=
  {| isCascadeUpdate := v;
     target := target this; propertyName := propertyName this;
     entityMetadata := entityMetadata this;
     inverseEntityMetadata := inverseEntityMetadata this;
     junctionEntityMetadata := junctionEntityMetadata this;
     joinTable := joinTable this; joinColumn := joinColumn this;
     isTreeParent := isTreeParent this; isTreeChildren := isTreeChildren this;
     relationType := relationType this;
     isCascadeInsert := isCascadeInsert this;
     isCascadeRemove := isCascadeRemove this; isNullable := isNullable this;
     oldColumnName := oldColumnName this; onDelete := onDelete this;
     propertyType := propertyType this; _type := _type this;
     _inverseSideProperty := _inverseSideProperty this |}.

Definition set_isCascadeRemove v (this : RelationMetadata) : RelationMetadata :=
  {| isCascadeRemove := v;
     target := target this; propertyName := propertyName this;
     entityMetadata := entityMetadata this;
     inverseEntityMetadata := inverseEntityMetadata this;
     junctionEntityMetadata := junctionEntityMetadata this;
     joinTable := joinTable this; joinColumn := joinColumn this;
     isTreeParent := isTreeParent this; isTreeChildren := isTreeChildren this;
     relationType := relationType this;
     isCascadeInsert := isCascadeInsert this;
     isCascadeUpdate := isCascadeUpdate this; isNullable := isNullable this;
     oldColumnName := oldColumnName this; onDelete := onDelete this;
     propertyType := propertyType this; _type := _type this;
     _inverseSideProperty := _inverseSideProperty this |}.

Definition set_isNullable v (this : RelationMetadata) : RelationMetadata :=
  {| isNullable := v;
     target := target this; propertyName := propertyName this;
     entityMetadata := entityMetadata this;
     inverseEntityMetadata := inverseEntityMetadata this;
     junctionEntityMetadata := junctionEntityMetadata this;
     joinTable := joinTable this; joinColumn := joinColumn this;
     isTreeParent := isTreeParent this; isTreeChildren := isTreeChildren this;
     relationType := relationType this;
     isCascadeInsert := isCascadeInsert this;
     isCascadeUpdate := isCascadeUpdate this;
     isCascadeRemove := isCascadeRemove this;
     oldColumnName := oldColumnName this; onDelete := onDelete this;
     propertyType := propertyType this; _type := _type this;
     _inverseSideProperty := _inverseSideProperty this |}.

Definition set_oldColumnName v (this : RelationMetadata) : RelationMetadata :=
  {| oldColumnName := v;
     target := target this; propertyName := propertyName this;
     entityMetadata := entityMetadata this;
     inverseEntityMetadata := inverseEntityMetadata this;
     junctionEntityMetadata := junctionEntityMetadata this;
     joinTable := joinTable this; joinColumn := joinColumn this;
     isTreeParent := isTreeParent this; isTreeChildren := isTreeChildren this;
     relationType := relationType this;
     isCascadeInsert := isCascadeInsert this;
     isCascadeUpdate := isCascadeUpdate this;
     isCascadeRemove := isCascadeRemove this; isNullable := isNullable this;
     onDelete := onDelete this; propertyType := propertyType this;
     _type := _type this;
     _inverseSideProperty := _inverseSideProperty this |}.

Definition set_onDelete v (this : RelationMetadata) : RelationMetadata :=
  {| onDelete := v;
     target := target this; propertyName := propertyName this;
     entityMetadata := entityMetadata this;
     inverseEntityMetadata := inverseEntityMetadata this;
     junctionEntityMetadata := junctionEntityMetadata this;
     joinTable := joinTable this; joinColumn := joinColumn this;
     isTreeParent := isTreeParent this; isTreeChildren := isTreeChildren this;
     relationType := relationType this;
     isCascadeInsert := isCascadeInsert this;
     isCascadeUpdate := isCascadeUpdate this;
     isCascadeRemove := isCascadeRemove this; isNullable := isNullable this;
     oldColumnName := oldColumnName this; propertyType := propertyType this;
     _type := _type this;
     _inverseSideProperty := _inverseSideProperty this |}.

Definition set_propertyType v (this : RelationMetadata) : RelationMetadata :=
  {| propertyType := v;
     target := target this; propertyName := propertyName this;
     entityMetadata := entityMetadata this;
     inverseEntityMetadata := inverseEntityMetadata this;
     junctionEntityMetadata := junctionEntityMetadata this;
     joinTable := joinTable this; joinColumn := joinColumn this;
     isTreeParent := isTreeParent this; isTreeChildren := isTreeChildren this;
     relationType := relationType this;
     isCascadeInsert := isCascadeInsert this;
     isCascadeUpdate := isCascadeUpdate this;
     isCascadeRemove := isCascadeRemove this; isNullable := isNullable this;
     oldColumnName := oldColumnName this; onDelete := onDelete this;
     _type := _type this;
     _inverseSideProperty := _inverseSideProperty this |}.

Definition set_type v (this : RelationMetadata) : RelationMetadata :=
  {| _type := v;
     target := target this; propertyName := propertyName this;
     entityMetadata := entityMetadata this;
     inverseEntityMetadata := inverseEntityMetadata this;
     junctionEntityMetadata := junctionEntityMetadata this;
     joinTable := joinTable this; joinColumn := joinColumn this;
     isTreeParent := isTreeParent this; isTreeChildren := isTreeChildren this;
     relationType := relationType this;
     isCascadeInsert := isCascadeInsert this;
     isCascadeUpdate := isCascadeUpdate this;
     isCascadeRemove := isCascadeRemove this; isNullable := isNullable this;
     oldColumnName := oldColumnName this; onDelete := onDelete this;
     propertyType := propertyType this;
     _inverseSideProperty := _inverseSideProperty this |}.

Definition set_inverseSideProperty v (this : RelationMetadata) : RelationMetadata :=
  {| _inverseSideProperty := v;
     target := target this; propertyName := propertyName this;
     entityMetadata := entityMetadata this;
     inverseEntityMetadata := inverseEntityMetadata this;
     junctionEntityMetadata := junctionEntityMetadata this;
     joinTable := joinTable this; joinColumn := joinColumn this;
     isTreeParent := isTreeParent this; isTreeChildren := isTreeChildren this;
     relationType := relationType this;
     isCascadeInsert := isCascadeInsert this;
     isCascadeUpdate := isCascadeUpdate this;
     isCascadeRemove := isCascadeRemove this; isNullable := isNullable this;
     oldColumnName := oldColumnName this; onDelete := onDelete this;
     propertyType := propertyType this; _type := _type this |}.

(** Truthiness of an optional object (or of an optional non-empty string
    literal). *)
Definition truthy_object {A : Type} (o : option A) : bool :=
  match o with
  | Some _ => true
  | None => false
  end.

(** [if (guard) assignment]. *)
Definition when (guard : bool) (assignment : RelationMetadata -> RelationMetadata)
    (this : RelationMetadata) : RelationMetadata :=
  if guard then assignment this else this.

(** The object on entry to the constructor's conditional statements: after
    [super(args.target, args.propertyName)], the field initializers
    ([isTreeParent = false], [isTreeChildren = false], [isNullable = true];
    the other fields are not set) and the assignment of [relationType], which
    has no initializer and is assigned unconditionally. *)
Definition fresh (target : Class) (propertyName : string)
    (relationType : RelationType) : RelationMetadata :=
  {| target := target;
     propertyName := propertyName;
     entityMetadata := None;
     inverseEntityMetadata := None;
     junctionEntityMetadata := None;
     joinTable := None;
     joinColumn := None;
     isTreeParent := false;
     isTreeChildren := false;
     relationType := relationType;
     isCascadeInsert := None;
     isCascadeUpdate := None;
     isCascadeRemove := None;
     isNullable := true;
     oldColumnName := None;
     onDelete := None;
     propertyType := None;
     _type := None;
     _inverseSideProperty := None |}.

(** The constructor: the statements of its body, in their order. *)
Definition constructor (args : RelationMetadataArgs.t) : RelationMetadata :=
  let options := RelationMetadataArgs.options args in
  let this := fresh (RelationMetadataArgs.target args)
                    (RelationMetadataArgs.propertyName args)
                    (RelationMetadataArgs.relationType args) in
  let this :=
    when (truthy_inverseSide (RelationMetadataArgs.inverseSideProperty args))
         (set_inverseSideProperty (RelationMetadataArgs.inverseSideProperty args))
         this in
  let this :=
    when (truthy_object (RelationMetadataArgs.propertyType args))
         (set_propertyType (RelationMetadataArgs.propertyType args)) this in
  let this :=
    when (truthy_bool (RelationOptions.cascadeInsert options)
          || truthy_bool (RelationOptions.cascadeAll options))
         (set_isCascadeInsert (Some true)) this in
  let this :=
    when (truthy_bool (RelationOptions.cascadeUpdate options)
          || truthy_bool (RelationOptions.cascadeAll options))
         (set_isCascadeUpdate (Some true)) this in
  let this :=
    when (truthy_bool (RelationOptions.cascadeRemove options)
          || truthy_bool (RelationOptions.cascadeAll options))
         (set_isCascadeRemove (Some true)) this in
  let this :=
    when (truthy_string (RelationOptions.oldColumnName options))
         (set_oldColumnName (RelationOptions.oldColumnName options)) this in
  let this :=
    match RelationOptions.nullable options with
    | Some nullable => when nullable (set_isNullable nullable) this
    | None => this
    end in
  let this :=
    when (truthy_object (RelationOptions.onDelete options))
         (set_onDelete (RelationOptions.onDelete options)) this in
  let this :=
    when (truthy_bool (RelationMetadataArgs.isTreeParent args))
         (set_isTreeParent true) this in
  let this :=
    when (truthy_bool (RelationMetadataArgs.isTreeChildren args))
         (set_isTreeChildren true) this in
  when (negb (truthy_object (_type this)))
       (set_type (Some (RelationMetadataArgs.type args))) this.

(** The declaration that the [TreeParent] decorator registers for a property
    [propertyName] of class [object_constructor], whose reflected type is
    [reflectedType]. *)
Definition TreeParent (options : option RelationOptions.t)
    (object_constructor : Class) (propertyName : string)
    (reflectedType : option ReflectedType.t) : RelationMetadataArgs.t :=
  let options :=
    match options with Some o => o | None => RelationOptions.empty end in
  {| RelationMetadataArgs.isTreeParent := Some true;
     RelationMetadataArgs.isTreeChildren := None;
     RelationMetadataArgs.inverseSideProperty := None;
     RelationMetadataArgs.target := object_constructor;
     RelationMetadataArgs.propertyName := propertyName;
     RelationMetadataArgs.propertyType := reflectedType;
     RelationMetadataArgs.relationType := MANY_TO_ONE;
     RelationMetadataArgs.type := fun _ => object_constructor;
     RelationMetadataArgs.options := options |}.

(** ** EntityMetadata, the collaborator *)

(** Modelled from the spec: the entity descriptor, which "holds the set of all
    relations for a class, its naming strategy, its primary-key column, and
    tree-specific relation pointers" (at most one of each), and the lookup
    operations the relation calls on it. *)
Module EntityMetadata.
Record t := mk {
  name : string;
  namingStrategy : NamingStrategyInterface.t;
  columns : list ColumnMetadata.t;
  relations : list RelationMetadata;
  primaryColumn : ColumnMetadata.t;
  treeParentRelation : option RelationMetadata;
  treeChildrenRelation : option RelationMetadata }.

(** The relation whose property name is (strictly equal to) the given
    value, or absent. *)
Definition findRelationWithPropertyName (this : t) (name : JsValue)
  : option RelationMetadata :=
  List.find (fun relation => strict_equals_string name (propertyName relation))
            (relations this).

Definition hasRelationWithPropertyName (this : t) (name : JsValue) : bool :=
  match findRelationWithPropertyName this name with
  | Some _ => true
  | None => false
  end.

(** The names of all declared properties: columns, then relations. *)
Definition propertyNames (this : t) : list string :=
  (ColumnMetadata.propertyName <$> columns this)
  ++ (propertyName <$> relations this).

(** "a map built from the related entity's full set of declared properties
    (mapping each property's access path to its own name)". *)
Definition createPropertiesMap (this : t) : PropertiesMap :=
  foldr (fun p m => <[p := p]> m) ∅ (propertyNames this).
End EntityMetadata.

(** The registry of entity descriptors. *)
Abbreviation Registry := (gmap EntityRef EntityMetadata.t).

(** Reading through a reference in order to access a member of the entity:
    on [undefined] the member access throws. *)
Definition deref (registry : Registry) (ref : option EntityRef)
  : Completion EntityMetadata.t :=
  match ref with
  | Some e =>
      match registry !! e with
      | Some entity => Normal entity
      | None => Throw TypeError
      end
  | None => Throw TypeError
  end.

(** Modelled from the spec: the wiring pass, which attaches the references to
    the owning and related entity and the join descriptors to a constructed
    relation. *)
Definition wire (owner related : EntityRef)
    (table : option JoinTableMetadata.t) (column : option JoinColumnMetadata.t)
    (this : RelationMetadata) : RelationMetadata :=
  let this := set_entityMetadata (Some owner) this in
  let this := set_inverseEntityMetadata (Some related) this in
  let this := set_joinTable table this in
  set_joinColumn column this.

(** ** Accessors of RelationMetadata *)

Section Accessors.
Variable registry : Registry.

(** [get name()]: the column name of the owning side. *)
Definition name (this : RelationMetadata) : Completion string :=
  let default_name :=
    entity ← deref registry (entityMetadata this);
    mret (NamingStrategyInterface.relationName
            (EntityMetadata.namingStrategy entity) (propertyName this)) in
  match joinColumn this with
  | Some column =>
      match JoinColumnMetadata.name column with
      | Some explicit =>
          if negb (explicit =? "") then
            entity ← deref registry (entityMetadata this);
            mret (NamingStrategyInterface.relationNameCustomized
                    (EntityMetadata.namingStrategy entity) explicit)
          else default_name
      | None => default_name
      end
  | None => default_name
  end.

(** [get referencedColumnName()]. *)
Definition referencedColumnName (this : RelationMetadata) : Completion string :=
  let fallback :=
    related ← deref registry (inverseEntityMetadata this);
    mret (ColumnMetadata.propertyName (EntityMetadata.primaryColumn related)) in
  match joinColumn this with
  | Some column =>
      match JoinColumnMetadata.referencedColumn column with
      | Some referenced =>
          match ColumnMetadata.name referenced with
          | Some n => if negb (n =? "") then mret n else fallback
          | None => fallback
          end
      | None => fallback
      end
  | None => fallback
  end.

(** [get type()]: calls the stored thunk. *)
Definition type (this : RelationMetadata) : Completion Class :=
  match _type this with
  | Some f => mret (f tt)
  | None => Throw TypeError
  end.

(** [get isLazy()]: the value of
    [propertyType && propertyType.name && propertyType.name.toLowerCase() === "promise"]. *)
Definition isLazy (this : RelationMetadata) : JsValue :=
  match propertyType this with
  | None => JsUndefined
  | Some reflected =>
      match ReflectedType.name reflected with
      | None => JsUndefined
      | Some n =>
          js_and (JsString n) (JsBoolean (toLowerCase n =? "promise"))
      end
  end.

Definition isOneToOne (this : RelationMetadata) : bool :=
  bool_decide (relationType this = ONE_TO_ONE).
Definition isOneToMany (this : RelationMetadata) : bool :=
  bool_decide (relationType this = ONE_TO_MANY).
Definition isManyToOne (this : RelationMetadata) : bool :=
  bool_decide (relationType this = MANY_TO_ONE).
Definition isManyToMany (this : RelationMetadata) : bool :=
  bool_decide (relationType this = MANY_TO_MANY).

(** The value of an optional descriptor field. *)
Definition joinTable_value (this : RelationMetadata) : JsValue :=
  match joinTable this with Some o => JsJoinTable o | None => JsUndefined end.
Definition joinColumn_value (this : RelationMetadata) : JsValue :=
  match joinColumn this with Some o => JsJoinColumn o | None => JsUndefined end.

(** [get isOwning()]. *)
Definition isOwning (this : RelationMetadata) : JsValue :=
  js_or (js_or (JsBoolean (isManyToOne this))
               (js_and (JsBoolean (isManyToMany this)) (joinTable_value this)))
        (js_and (JsBoolean (isOneToOne this)) (joinColumn_value this)).

(** [computeInverseSide]: the properties map is built first, whatever the
    specifier is.  The specifier is a function or a string, so the final
    [return ""] of the source is not reached. *)
Definition computeInverseSide (this : RelationMetadata)
    (inverseSide : PropertyTypeInFunction) : Completion JsValue :=
  related ← deref registry (inverseEntityMetadata this);
  let ownerEntityPropertiesMap := EntityMetadata.createPropertiesMap related in
  match inverseSide with
  | Resolver f => mret (f ownerEntityPropertiesMap)
  | Literal s => mret (JsString s)
  end.

(** [get inverseSideProperty()]. *)
Definition inverseSideProperty (this : RelationMetadata) : Completion JsValue :=
  let without_specifier :=
    if isTreeParent this then
      entity ← deref registry (entityMetadata this);
      match EntityMetadata.treeChildrenRelation entity with
      | Some children => mret (JsString (propertyName children))
      | None => Throw TypeError
      end
    else if isTreeChildren this then
      entity ← deref registry (entityMetadata this);
      match EntityMetadata.treeParentRelation entity with
      | Some parent => mret (JsString (propertyName parent))
      | None => Throw TypeError
      end
    else mret (JsString "") in
  match _inverseSideProperty this with
  | Some inverseSide =>
      if truthy_inverseSide (Some inverseSide)
      then computeInverseSide this inverseSide
      else without_specifier
  | None => without_specifier
  end.

(** [get hasInverseSide()]: the value of
    [inverseEntityMetadata && inverseEntityMetadata.hasRelationWithPropertyName(inverseSideProperty)]. *)
Definition hasInverseSide (this : RelationMetadata) : Completion JsValue :=
  match inverseEntityMetadata this with
  | None => mret JsUndefined
  | Some _ =>
      related ← deref registry (inverseEntityMetadata this);
      inverse ← inverseSideProperty this;
      mret (JsBoolean (EntityMetadata.hasRelationWithPropertyName related inverse))
  end.

(** [get inverseRelation()]. *)
Definition inverseRelation (this : RelationMetadata)
  : Completion RelationMetadata :=
  related ← deref registry (inverseEntityMetadata this);
  inverse ← inverseSideProperty this;
  match EntityMetadata.findRelationWithPropertyName related inverse with
  | Some relation => mret relation
  | None =>
      entity ← deref registry (entityMetadata this);
      inverse ← inverseSideProperty this;
      Throw (Error ("Inverse side was not found in the relation "
                    +:+ EntityMetadata.name entity +:+ "#"
                    +:+ ToString inverse))
  end.
End Accessors.

(** ** Wiring and the properties that the statements speak of *)

(** The owning (resp. related) entity reference of [this] is attached and
    denotes [entity]. *)
Definition owner_is (registry : Registry) (this : RelationMetadata)
    (entity : EntityMetadata.t) : Prop :=
  exists e, entityMetadata this = Some e /\ registry !! e = Some entity.

Definition related_is (registry : Registry) (this : RelationMetadata)
    (entity : EntityMetadata.t) : Prop :=
  exists e, inverseEntityMetadata this = Some e /\ registry !! e = Some entity.

(** A join-column descriptor is present and carries the explicit name [n]. *)
Definition explicit_joinColumn_name (this : RelationMetadata) (n : string) : Prop :=
  exists column,
    joinColumn this = Some column
    /\ JoinColumnMetadata.name column = Some n /\ n <> "".

(** A join-column descriptor is present and references a column named [n]. *)
Definition referenced_column_named (this : RelationMetadata) (n : string) : Prop :=
  exists column referenced,
    joinColumn this = Some column
    /\ JoinColumnMetadata.referencedColumn column = Some referenced
    /\ ColumnMetadata.name referenced = Some n /\ n <> "".

(** The entity has a relation whose property name is the value [inverse]. *)
Definition has_relation_named (entity : EntityMetadata.t) (inverse : JsValue) : Prop :=
  exists relation,
    relation ∈ EntityMetadata.relations entity
    /\ inverse = JsString (propertyName relation).

(** The declaration [args] with its inverse-side specifier left out. *)
Definition without_inverseSideProperty (args : RelationMetadataArgs.t)
  : RelationMetadataArgs.t :=
  {| RelationMetadataArgs.target := RelationMetadataArgs.target args;
     RelationMetadataArgs.propertyName := RelationMetadataArgs.propertyName args;
     RelationMetadataArgs.propertyType := RelationMetadataArgs.propertyType args;
     RelationMetadataArgs.relationType := RelationMetadataArgs.relationType args;
     RelationMetadataArgs.type := RelationMetadataArgs.type args;
     RelationMetadataArgs.inverseSideProperty := None;
     RelationMetadataArgs.isTreeParent := RelationMetadataArgs.isTreeParent args;
     RelationMetadataArgs.isTreeChildren := RelationMetadataArgs.isTreeChildren args;
     RelationMetadataArgs.options := RelationMetadataArgs.options args |}.

(** The message of the error that [inverseRelation] throws. *)
Definition inverse_side_not_found (entity : EntityMetadata.t) (inverse : JsValue)
  : Exception :=
  Error ("Inverse side was not found in the relation "
         +:+ EntityMetadata.name entity +:+ "#" +:+ ToString inverse).

(** ** A small data model used to exercise the statements *)

Module Sample.
Definition namingStrategy : NamingStrategyInterface.t :=
  {| NamingStrategyInterface.relationName := fun p => p;
     NamingStrategyInterface.relationNameCustomized := fun n => n |}.

Definition id : ColumnMetadata.t := ColumnMetadata.mk (Some "id") "id".

Definition declaration (target propertyName : string) (kind : RelationType)
    (related : Class) (inverseSide : option PropertyTypeInFunction)
    (options : RelationOptions.t) : RelationMetadataArgs.t :=
  {| RelationMetadataArgs.target := target;
     RelationMetadataArgs.propertyName := propertyName;
     RelationMetadataArgs.propertyType := Some (ReflectedType.mk (Some "Object"));
     RelationMetadataArgs.relationType := kind;
     RelationMetadataArgs.type := fun _ => related;
     RelationMetadataArgs.inverseSideProperty := inverseSide;
     RelationMetadataArgs.isTreeParent := None;
     RelationMetadataArgs.isTreeChildren := None;
     RelationMetadataArgs.options := options |}.

(** A tree entity [Category] (registry key 0) with [parent] and [children]. *)
Definition parent_args : RelationMetadataArgs.t :=
  TreeParent None "Category" "parent" (Some (ReflectedType.mk (Some "Category"))).

Definition children_args : RelationMetadataArgs.t :=
  {| RelationMetadataArgs.target := "Category";
     RelationMetadataArgs.propertyName := "children";
     RelationMetadataArgs.propertyType := Some (ReflectedType.mk (Some "Array"));
     RelationMetadataArgs.relationType := ONE_TO_MANY;
     RelationMetadataArgs.type := fun _ => "Category";
     RelationMetadataArgs.inverseSideProperty := None;
     RelationMetadataArgs.isTreeParent := None;
     RelationMetadataArgs.isTreeChildren := Some true;
     RelationMetadataArgs.options := RelationOptions.empty |}.

Definition parent : RelationMetadata := wire 0 0 None None (constructor parent_args).
Definition children : RelationMetadata := wire 0 0 None None (constructor children_args).

Definition Category : EntityMetadata.t :=
  {| EntityMetadata.name := "Category";
     EntityMetadata.namingStrategy := namingStrategy;
     EntityMetadata.columns := [id];
     EntityMetadata.relations := [parent; children];
     EntityMetadata.primaryColumn := id;
     EntityMetadata.treeParentRelation := Some parent;
     EntityMetadata.treeChildrenRelation := Some children |}.

(** The same tree parent, declared with the empty string as its inverse
    side. *)
Definition parent_empty_literal_args : RelationMetadataArgs.t :=
  {| RelationMetadataArgs.target := "Category";
     RelationMetadataArgs.propertyName := "parent";
     RelationMetadataArgs.propertyType := Some (ReflectedType.mk (Some "Category"));
     RelationMetadataArgs.relationType := MANY_TO_ONE;
     RelationMetadataArgs.type := fun _ => "Category";
     RelationMetadataArgs.inverseSideProperty := Some (Literal "");
     RelationMetadataArgs.isTreeParent := Some true;
     RelationMetadataArgs.isTreeChildren := None;
     RelationMetadataArgs.options := RelationOptions.empty |}.

Definition parent_empty_literal : RelationMetadata :=
  wire 0 0 None None (constructor parent_empty_literal_args).

(** A tree entity [Folder] (key 3) that declares a tree parent and no tree
    children. *)
Definition folder_parent : RelationMetadata :=
  wire 3 3 None None
    (constructor (TreeParent None "Folder" "parent"
                    (Some (ReflectedType.mk (Some "Folder"))))).

Definition Folder : EntityMetadata.t :=
  {| EntityMetadata.name := "Folder";
     EntityMetadata.namingStrategy := namingStrategy;
     EntityMetadata.columns := [id];
     EntityMetadata.relations := [folder_parent];
     EntityMetadata.primaryColumn := id;
     EntityMetadata.treeParentRelation := Some folder_parent;
     EntityMetadata.treeChildrenRelation := None |}.

(** [Order] (key 1) and [Customer] (key 2): [Order.customer] is the owning
    many-to-one side, its inverse is given by a resolver; [Customer.orders]
    names its inverse literally; [Order.payer] names an inverse that
    [Customer] does not have. *)
Definition customer_join : JoinColumnMetadata.t :=
  JoinColumnMetadata.mk (Some "customer_ref")
    (Some (ColumnMetadata.mk (Some "uuid") "uuid")).

Definition cascade_all : RelationOptions.t :=
  RelationOptions.mk None (Some false) None (Some true) None None None.

Definition not_nullable : RelationOptions.t :=
  RelationOptions.mk (Some true) None None None (Some false) None None.

Definition orders_of (t : PropertiesMap) : JsValue :=
  match t !! "orders" with Some p => JsString p | None => JsUndefined end.

Definition customer_args : RelationMetadataArgs.t :=
  declaration "Order" "customer" MANY_TO_ONE "Customer"
    (Some (Resolver orders_of)) cascade_all.
Definition orders_args : RelationMetadataArgs.t :=
  declaration "Customer" "orders" ONE_TO_MANY "Order"
    (Some (Literal "customer")) RelationOptions.empty.
Definition payer_args : RelationMetadataArgs.t :=
  declaration "Order" "payer" MANY_TO_ONE "Customer"
    (Some (Literal "payments")) not_nullable.

Definition customer : RelationMetadata :=
  wire 1 2 None (Some customer_join) (constructor customer_args).
Definition orders : RelationMetadata :=
  wire 2 1 None None (constructor orders_args).
Definition payer : RelationMetadata :=
  wire 1 2 None None (constructor payer_args).

Definition Order : EntityMetadata.t :=
  {| EntityMetadata.name := "Order";
     EntityMetadata.namingStrategy := namingStrategy;
     EntityMetadata.columns := [id];
     EntityMetadata.relations := [customer; payer];
     EntityMetadata.primaryColumn := id;
     EntityMetadata.treeParentRelation := None;
     EntityMetadata.treeChildrenRelation := None |}.

Definition Customer : EntityMetadata.t :=
  {| EntityMetadata.name := "Customer";
     EntityMetadata.namingStrategy := namingStrategy;
     EntityMetadata.columns := [id];
     EntityMetadata.relations := [orders];
     EntityMetadata.primaryColumn := id;
     EntityMetadata.treeParentRelation := None;
     EntityMetadata.treeChildrenRelation := None |}.

Definition registry : Registry :=
  <[0 := Category]> (<[1 := Order]> (<[2 := Customer]> (<[3 := Folder]> ∅))).
End Sample.

(** Further relations of the sample model: [Order.supplier], a many-to-one
    relation to [Customer] declared without an inverse side, and
    [Order.customer] before its related entity is attached. *)
Module Unwired.
Definition supplier_args : RelationMetadataArgs.t :=
  Sample.declaration "Order" "supplier" MANY_TO_ONE "Customer" None
    RelationOptions.empty.

Definition supplier : RelationMetadata :=
  wire 1 2 None None (constructor supplier_args).

Definition customer : RelationMetadata :=
  set_joinColumn (Some Sample.customer_join)
    (set_entityMetadata (Some 1) (constructor Sample.customer_args)).
End Unwired.

(** ** Construction *)

Section Construction.
Variable args : RelationMetadataArgs.t.
Let options := RelationMetadataArgs.options args.

Lemma truthy_bool_true (o : option bool) : o = Some true -> truthy_bool o = true.
Proof. by intros ->. Qed.

(** Every statement of the constructor assigns a field of its own, so each
    field of the result is given by the one statement that writes it: the
    initial value when the guard is falsy, the assigned value otherwise. *)
Lemma constructor_fields :
  constructor args
  = {| target := RelationMetadataArgs.target args;
       propertyName := RelationMetadataArgs.propertyName args;
       entityMetadata := None;
       inverseEntityMetadata := None;
       junctionEntityMetadata := None;
       joinTable := None;
       joinColumn := None;
       relationType := RelationMetadataArgs.relationType args;
       _inverseSideProperty :=
         if truthy_inverseSide (RelationMetadataArgs.inverseSideProperty args)
         then RelationMetadataArgs.inverseSideProperty args else None;
       propertyType := RelationMetadataArgs.propertyType args;
       isCascadeInsert :=
         if truthy_bool (RelationOptions.cascadeInsert options)
            || truthy_bool (RelationOptions.cascadeAll options)
         then Some true else None;
       isCascadeUpdate :=
         if truthy_bool (RelationOptions.cascadeUpdate options)
            || truthy_bool (RelationOptions.cascadeAll options)
         then Some true else None;
       isCascadeRemove :=
         if truthy_bool (RelationOptions.cascadeRemove options)
            || truthy_bool (RelationOptions.cascadeAll options)
         then Some true else None;
       oldColumnName :=
         if truthy_string (RelationOptions.oldColumnName options)
         then RelationOptions.oldColumnName options else None;
       isNullable := true;
       onDelete := RelationOptions.onDelete options;
       isTreeParent := truthy_bool (RelationMetadataArgs.isTreeParent args);
       isTreeChildren := truthy_bool (RelationMetadataArgs.isTreeChildren args);
       _type := Some (RelationMetadataArgs.type args) |}.
Proof.
  subst options. unfold constructor.
  destruct (truthy_inverseSide _), (RelationMetadataArgs.propertyType args),
    (truthy_bool (RelationOptions.cascadeInsert _)),
    (truthy_bool (RelationOptions.cascadeUpdate _)),
    (truthy_bool (RelationOptions.cascadeRemove _)),
    (truthy_bool (RelationOptions.cascadeAll _)),
    (truthy_string _), (RelationOptions.nullable _) as [[]|],
    (RelationOptions.onDelete _),
    (truthy_bool (RelationMetadataArgs.isTreeParent args)),
    (truthy_bool (RelationMetadataArgs.isTreeChildren args)); reflexivity.
Qed.

(** Each cascade flag is [true] exactly when its own option or the blanket
    option is truthy, and is left undefined otherwise. *)
Lemma isCascadeInsert_constructor :
  isCascadeInsert (constructor args) = Some true
  <-> RelationOptions.cascadeInsert options = Some true
      \/ RelationOptions.cascadeAll options = Some true.
Proof.
  rewrite constructor_fields; unfold options; simpl.
  destruct (RelationOptions.cascadeInsert _) as [[]|],
           (RelationOptions.cascadeAll _) as [[]|]; simpl;
    intuition congruence.
Qed.

(** C4. A declaration with the blanket option [cascadeAll = true] yields
    [isCascadeInsert = isCascadeUpdate = isCascadeRemove = true] whatever
    the individual options are; and each flag is [true] as soon as its own
    option is [true]. *)
Theorem constructor_cascade :
  (RelationOptions.cascadeAll options = Some true ->
     isCascadeInsert (constructor args) = Some true
     /\ isCascadeUpdate (constructor args) = Some true
     /\ isCascadeRemove (constructor args) = Some true)
  /\ (RelationOptions.cascadeInsert options = Some true ->
        isCascadeInsert (constructor args) = Some true)
  /\ (RelationOptions.cascadeUpdate options = Some true ->
        isCascadeUpdate (constructor args) = Some true)
  /\ (RelationOptions.cascadeRemove options = Some true ->
        isCascadeRemove (constructor args) = Some true).
Proof.
  rewrite constructor_fields; unfold options; simpl.
  split; [intros Hall | repeat split; intros Hown].
  - rewrite (truthy_bool_true _ Hall), !orb_true_r. done.
  - by rewrite (truthy_bool_true _ Hown).
  - by rewrite (truthy_bool_true _ Hown).
  - by rewrite (truthy_bool_true _ Hown).
Qed.

(** A constructed relation is nullable, whatever the declaration says. *)
Lemma isNullable_constructor : isNullable (constructor args) = true.
Proof. by rewrite constructor_fields. Qed.

(** The specifier is stored only when it is truthy. *)
Lemma inverseSideProperty_stored :
  _inverseSideProperty (constructor args)
  = if truthy_inverseSide (RelationMetadataArgs.inverseSideProperty args)
    then RelationMetadataArgs.inverseSideProperty args else None.
Proof. by rewrite constructor_fields. Qed.

Lemma isTreeParent_constructor :
  isTreeParent (constructor args)
  = truthy_bool (RelationMetadataArgs.isTreeParent args).
Proof. by rewrite constructor_fields. Qed.

Lemma isTreeChildren_constructor :
  isTreeChildren (constructor args)
  = truthy_bool (RelationMetadataArgs.isTreeChildren args).
Proof. by rewrite constructor_fields. Qed.
End Construction.

Lemma constructor_cascade_witness :
  (isCascadeInsert (constructor Sample.customer_args) = Some true
   /\ isCascadeUpdate (constructor Sample.customer_args) = Some true
   /\ isCascadeRemove (constructor Sample.customer_args) = Some true)
  /\ isCascadeInsert (constructor Sample.payer_args) = Some true.
Proof.
  split.
  - apply (proj1 (constructor_cascade Sample.customer_args)). reflexivity.
  - apply (proj1 (proj2 (constructor_cascade Sample.payer_args))). reflexivity.
Defined.

(** C5. A declaration that explicitly states [nullable = false] (here
    [Order.payer]) yields a relation whose [isNullable] is [true]: the guard
    [if (args.options.nullable)] skips the assignment for the value
    [false]. *)
Theorem constructor_nullable_false :
  RelationOptions.nullable (RelationMetadataArgs.options Sample.payer_args)
  = Some false
  /\ isNullable (constructor Sample.payer_args) = true.
Proof. split; reflexivity. Qed.

(** ** Ownership *)

(** C1. [isOwning] holds according to the kind: always for many-to-one, never
    for one-to-many, for many-to-many exactly when a join table is attached,
    for one-to-one exactly when a join column is attached. *)
Theorem isOwning_by_kind (this : RelationMetadata) :
  ToBoolean (isOwning this)
  = match relationType this with
    | MANY_TO_ONE => true
    | ONE_TO_MANY => false
    | MANY_TO_MANY => bool_decide (is_Some (joinTable this))
    | ONE_TO_ONE => bool_decide (is_Some (joinColumn this))
    end.
Proof.
  unfold isOwning, isManyToOne, isManyToMany, isOneToOne,
    joinTable_value, joinColumn_value.
  destruct (relationType this), (joinTable this), (joinColumn this);
    reflexivity.
Qed.

(** The value itself: [true] or [false] when the kind decides, the attached
    descriptor (a truthy object) when the descriptor decides. *)
Lemma isOwning_value (this : RelationMetadata) :
  isOwning this
  = match relationType this with
    | MANY_TO_ONE => JsBoolean true
    | ONE_TO_MANY => JsBoolean false
    | MANY_TO_MANY =>
        match joinTable this with
        | Some table => JsJoinTable table
        | None => JsBoolean false
        end
    | ONE_TO_ONE => joinColumn_value this
    end.
Proof.
  unfold isOwning, isManyToOne, isManyToMany, isOneToOne,
    joinTable_value, joinColumn_value.
  destruct (relationType this), (joinTable this), (joinColumn this);
    reflexivity.
Qed.

(** ** Lazy relations *)

Lemma js_and_string_boolean (n : string) (b : bool) :
  js_and (JsString n) (JsBoolean b)
  = if n =? "" then JsString "" else JsBoolean b.
Proof.
  unfold js_and; simpl. destruct (String.eqb_spec n ""); by subst.
Qed.

(** The comparison ignores the case of the letters. *)
Example toLowerCase_Promise :
  toLowerCase "Promise" = "promise" /\ toLowerCase "PROMISE" = "promise"
  /\ toLowerCase "pRoMiSe" = "promise" /\ toLowerCase "Promises" <> "promise"
  /\ toLowerCase "Object" <> "promise".
Proof. repeat split; (reflexivity || discriminate). Qed.

(** C9. With a property-type descriptor named [n], [isLazy] is [true] iff
    the lower-cased [n] is ["promise"]; for every other name it is falsy, and
    is the boolean [false] unless the name is empty (the empty name itself is
    then the value). *)
Theorem isLazy_iff_promise (this : RelationMetadata)
    (reflected : ReflectedType.t) (n : string) :
  propertyType this = Some reflected ->
  ReflectedType.name reflected = Some n ->
  (isLazy this = JsBoolean true <-> toLowerCase n = "promise")
  /\ (ToBoolean (isLazy this) = true <-> toLowerCase n = "promise")
  /\ (toLowerCase n <> "promise" ->
        ToBoolean (isLazy this) = false
        /\ (n <> "" -> isLazy this = JsBoolean false)).
Proof.
  intros Hp Hn. unfold isLazy. rewrite Hp, Hn, js_and_string_boolean.
  destruct (String.eqb_spec n "") as [->|Hne]; simpl.
  - repeat split; try discriminate; try done.
  - destruct (String.eqb_spec (toLowerCase n) "promise") as [Heq|Hneq].
    + repeat split; try done.
    + repeat split; try done; try (intros [=]; done).
Qed.

Lemma isLazy_iff_promise_witness :
  isLazy (constructor
            (TreeParent None "Category" "parent"
               (Some (ReflectedType.mk (Some "PROMISE")))))
  = JsBoolean true.
Proof.
  eapply (isLazy_iff_promise _ (ReflectedType.mk (Some "PROMISE")) "PROMISE");
    reflexivity.
Defined.

(** ** Accessors that consult the entities *)

Section Wired.
Variable registry : Registry.

Lemma deref_owner this entity :
  owner_is registry this entity ->
  deref registry (entityMetadata this) = Normal entity.
Proof. intros (e & -> & Hreg). unfold deref. by rewrite Hreg. Qed.

Lemma deref_related this entity :
  related_is registry this entity ->
  deref registry (inverseEntityMetadata this) = Normal entity.
Proof. intros (e & -> & Hreg). unfold deref. by rewrite Hreg. Qed.

(** C8. On a wired relation, [name] is the naming strategy's customized
    transform of the join column's explicit name when a join column is
    present and carries one, and the strategy's default transform of the
    property name otherwise. *)
Theorem name_by_joinColumn this entity :
  owner_is registry this entity ->
  (forall n, explicit_joinColumn_name this n ->
     name registry this
     = Normal (NamingStrategyInterface.relationNameCustomized
                 (EntityMetadata.namingStrategy entity) n))
  /\ ((forall n, ~ explicit_joinColumn_name this n) ->
        name registry this
        = Normal (NamingStrategyInterface.relationName
                    (EntityMetadata.namingStrategy entity) (propertyName this))).
Proof.
  intros Howner. unfold name. rewrite (deref_owner _ _ Howner).
  split.
  - intros n (column & -> & -> & Hn).
    apply String.eqb_neq in Hn. by rewrite Hn.
  - intros Hnone.
    destruct (joinColumn this) as [column|] eqn:Hcol; [|done].
    destruct (JoinColumnMetadata.name column) as [n|] eqn:Hname; [|done].
    destruct (String.eqb_spec n "") as [->|Hn]; [done|].
    destruct (Hnone n). by exists column.
Qed.

(** C7. On a wired relation, [referencedColumnName] is the name of the
    column that the join column references when a join column is present
    and references a named column, and the property name of the related
    entity's primary column otherwise. *)
Theorem referencedColumnName_by_joinColumn this related :
  related_is registry this related ->
  (forall n, referenced_column_named this n ->
     referencedColumnName registry this = Normal n)
  /\ ((forall n, ~ referenced_column_named this n) ->
        referencedColumnName registry this
        = Normal (ColumnMetadata.propertyName
                    (EntityMetadata.primaryColumn related))).
Proof.
  intros Hrelated. unfold referencedColumnName.
  rewrite (deref_related _ _ Hrelated).
  split.
  - intros n (column & referenced & -> & -> & -> & Hn).
    apply String.eqb_neq in Hn. by rewrite Hn.
  - intros Hnone.
    destruct (joinColumn this) as [column|] eqn:Hcol; [|done].
    destruct (JoinColumnMetadata.referencedColumn column)
      as [referenced|] eqn:Href; [|done].
    destruct (ColumnMetadata.name referenced) as [n|] eqn:Hname; [|done].
    destruct (String.eqb_spec n "") as [->|Hn]; [done|].
    destruct (Hnone n). by exists column, referenced.
Qed.

(** *** The inverse side *)

(** A relation without a usable specifier and without tree flags has the
    empty inverse side, wired or not. *)
Lemma inverseSideProperty_none this :
  truthy_inverseSide (_inverseSideProperty this) = false ->
  isTreeParent this = false -> isTreeChildren this = false ->
  inverseSideProperty registry this = Normal (JsString "").
Proof.
  intros Hspec Hp Hc. unfold inverseSideProperty.
  rewrite Hp, Hc. destruct (_inverseSideProperty this); [|done].
  by rewrite Hspec.
Qed.

(** The tree branches read the sibling pointer of the relation's own
    entity; an absent pointer makes the property read throw. *)
Lemma inverseSideProperty_treeParent this entity :
  owner_is registry this entity ->
  truthy_inverseSide (_inverseSideProperty this) = false ->
  isTreeParent this = true ->
  inverseSideProperty registry this
  = match EntityMetadata.treeChildrenRelation entity with
    | Some children => Normal (JsString (propertyName children))
    | None => Throw TypeError
    end.
Proof.
  intros Howner Hspec Hp. unfold inverseSideProperty.
  rewrite Hp, (deref_owner _ _ Howner).
  destruct (_inverseSideProperty this); [|done].
  by rewrite Hspec.
Qed.

Lemma inverseSideProperty_treeChildren this entity :
  owner_is registry this entity ->
  truthy_inverseSide (_inverseSideProperty this) = false ->
  isTreeParent this = false -> isTreeChildren this = true ->
  inverseSideProperty registry this
  = match EntityMetadata.treeParentRelation entity with
    | Some parent => Normal (JsString (propertyName parent))
    | None => Throw TypeError
    end.
Proof.
  intros Howner Hspec Hp Hc. unfold inverseSideProperty.
  rewrite Hp, Hc, (deref_owner _ _ Howner).
  destruct (_inverseSideProperty this); [|done].
  by rewrite Hspec.
Qed.

Lemma inverseSideProperty_specifier this related inverseSide :
  related_is registry this related ->
  _inverseSideProperty this = Some inverseSide ->
  truthy_inverseSide (Some inverseSide) = true ->
  inverseSideProperty registry this
  = Normal match inverseSide with
           | Resolver f => f (EntityMetadata.createPropertiesMap related)
           | Literal s => JsString s
           end.
Proof.
  intros Hrelated Hstored Htruthy. unfold inverseSideProperty.
  rewrite Hstored, Htruthy. unfold computeInverseSide.
  rewrite (deref_related _ _ Hrelated). by destruct inverseSide.
Qed.
End Wired.

(** The properties map sends each declared property to its own name and
    nothing else. *)
Lemma createPropertiesMap_lookup (entity : EntityMetadata.t) (p q : string) :
  EntityMetadata.createPropertiesMap entity !! p = Some q
  <-> p ∈ EntityMetadata.propertyNames entity /\ q = p.
Proof.
  unfold EntityMetadata.createPropertiesMap.
  induction (EntityMetadata.propertyNames entity) as [|x names IH]; simpl.
  - rewrite lookup_empty. split; [done|]. intros [Hin _]. inversion Hin.
  - rewrite lookup_insert. case_decide as Hx.
    + subst x. split.
      * intros [= ->]. split; [left|done].
      * by intros [_ ->].
    + rewrite IH, elem_of_cons. intuition congruence.
Qed.

(** The wiring pass writes the two entity references and the two join
    descriptors and leaves the other fields as they are. *)
Lemma wire_fields owner related table column (this : RelationMetadata) :
  wire owner related table column this
  = {| target := target this;
       propertyName := propertyName this;
       entityMetadata := Some owner;
       inverseEntityMetadata := Some related;
       junctionEntityMetadata := junctionEntityMetadata this;
       joinTable := table;
       joinColumn := column;
       isTreeParent := isTreeParent this;
       isTreeChildren := isTreeChildren this;
       relationType := relationType this;
       isCascadeInsert := isCascadeInsert this;
       isCascadeUpdate := isCascadeUpdate this;
       isCascadeRemove := isCascadeRemove this;
       isNullable := isNullable this;
       oldColumnName := oldColumnName this;
       onDelete := onDelete this;
       propertyType := propertyType this;
       _type := _type this;
       _inverseSideProperty := _inverseSideProperty this |}.
Proof. by destruct this. Qed.

Section Resolution.
Variable registry : Registry.
Variable args : RelationMetadataArgs.t.
Variables owner related : EntityRef.
Variable table : option JoinTableMetadata.t.
Variable column : option JoinColumnMetadata.t.

Let this := wire owner related table column (constructor args).
Let declared := RelationMetadataArgs.inverseSideProperty args.

Lemma wired_owner entity :
  registry !! owner = Some entity -> owner_is registry this entity.
Proof.
  intros Hreg. exists owner. split; [|done].
  unfold this. by rewrite wire_fields.
Qed.

Lemma wired_related entity :
  registry !! related = Some entity -> related_is registry this entity.
Proof.
  intros Hreg. exists related. split; [|done].
  unfold this. by rewrite wire_fields.
Qed.

Lemma wired_specifier :
  _inverseSideProperty this = if truthy_inverseSide declared then declared else None.
Proof. unfold this. by rewrite wire_fields, constructor_fields. Qed.

Lemma wired_specifier_falsy :
  truthy_inverseSide declared = false ->
  truthy_inverseSide (_inverseSideProperty this) = false.
Proof. intros H. rewrite wired_specifier. by rewrite H. Qed.

(** C2, amended for the empty literal.  On a relation constructed from a
    declaration and wired, [inverseSideProperty] resolves, first match
    winning: (1) a declared resolver is called with the properties map of
    the related entity and its result returned, a declared non-empty
    literal is returned as it is, tree flags or not; an empty literal
    counts as no specifier; (2) otherwise a tree parent returns the
    property name of the designated tree-children relation of the related
    entity, which for a tree relation is the relation's own entity, the one
    the code reads; (3) otherwise a tree-children relation returns the
    property name of the designated tree-parent relation; (4) otherwise the
    empty string. *)
Theorem inverseSideProperty_resolution entity :
  registry !! related = Some entity ->
  (isTreeParent this || isTreeChildren this = true -> related = owner) ->
  (forall f, declared = Some (Resolver f) ->
     inverseSideProperty registry this
     = Normal (f (EntityMetadata.createPropertiesMap entity)))
  /\ (forall s, declared = Some (Literal s) -> s <> "" ->
        inverseSideProperty registry this = Normal (JsString s))
  /\ (truthy_inverseSide declared = false ->
        (isTreeParent this = true ->
           forall children,
             EntityMetadata.treeChildrenRelation entity = Some children ->
             inverseSideProperty registry this
             = Normal (JsString (propertyName children)))
        /\ (isTreeParent this = false -> isTreeChildren this = true ->
              forall parent,
                EntityMetadata.treeParentRelation entity = Some parent ->
                inverseSideProperty registry this
                = Normal (JsString (propertyName parent)))
        /\ (isTreeParent this = false -> isTreeChildren this = false ->
              inverseSideProperty registry this = Normal (JsString ""))).
Proof.
  intros Hrelated Hself.
  pose proof (wired_related _ Hrelated) as Hrel.
  split; [|split].
  - intros f Hdecl.
    rewrite (inverseSideProperty_specifier registry this entity (Resolver f));
      try done.
    by rewrite wired_specifier, Hdecl.
  - intros s Hdecl Hs. apply String.eqb_neq in Hs.
    rewrite (inverseSideProperty_specifier registry this entity (Literal s));
      try done.
    + rewrite wired_specifier, Hdecl. simpl. by rewrite Hs.
    + simpl. by rewrite Hs.
  - intros Hfalsy. apply wired_specifier_falsy in Hfalsy.
    split; [|split].
    + intros Hp children Hchildren.
      assert (related = owner) as Heq by (apply Hself; by rewrite Hp).
      assert (owner_is registry this entity) as Howner
          by (apply wired_owner; by rewrite <- Heq).
      rewrite (inverseSideProperty_treeParent _ _ _ Howner Hfalsy Hp).
      by rewrite Hchildren.
    + intros Hp Hc parent Hparent.
      assert (related = owner) as Heq
          by (apply Hself; by rewrite Hc, orb_true_r).
      assert (owner_is registry this entity) as Howner
          by (apply wired_owner; by rewrite <- Heq).
      rewrite (inverseSideProperty_treeChildren _ _ _ Howner Hfalsy Hp Hc).
      by rewrite Hparent.
    + intros Hp Hc. by apply inverseSideProperty_none.
Qed.

(** C10. A declaration whose inverse side is the empty string yields the
    relation that the declaration without an inverse side yields: nothing
    is stored, and [inverseSideProperty] is what the tree flags give (the
    sibling's property name, or the empty string without a tree flag). *)
Theorem empty_literal_not_stored :
  declared = Some (Literal "") ->
  _inverseSideProperty (constructor args) = None
  /\ constructor args = constructor (without_inverseSideProperty args)
  /\ inverseSideProperty registry this
     = inverseSideProperty registry
         (wire owner related table column
            (constructor (without_inverseSideProperty args)))
  /\ (forall entity children,
        registry !! owner = Some entity ->
        isTreeParent this = true ->
        EntityMetadata.treeChildrenRelation entity = Some children ->
        inverseSideProperty registry this
        = Normal (JsString (propertyName children)))
  /\ (forall entity parent,
        registry !! owner = Some entity ->
        isTreeParent this = false -> isTreeChildren this = true ->
        EntityMetadata.treeParentRelation entity = Some parent ->
        inverseSideProperty registry this
        = Normal (JsString (propertyName parent)))
  /\ (isTreeParent this = false -> isTreeChildren this = false ->
        inverseSideProperty registry this = Normal (JsString "")).
Proof.
  intros Hdecl.
  assert (constructor args = constructor (without_inverseSideProperty args))
    as Hsame.
  { rewrite !constructor_fields. unfold declared in Hdecl. simpl.
    by rewrite Hdecl. }
  assert (truthy_inverseSide (_inverseSideProperty this) = false) as Hfalsy.
  { apply wired_specifier_falsy. by rewrite Hdecl. }
  split; [|split; [|split; [|split; [|split]]]].
  - rewrite inverseSideProperty_stored. unfold declared in Hdecl.
    by rewrite Hdecl.
  - exact Hsame.
  - subst this. by rewrite <- Hsame.
  - intros entity children Hreg Hp Hchildren.
    rewrite (inverseSideProperty_treeParent _ _ _ (wired_owner _ Hreg) Hfalsy Hp).
    by rewrite Hchildren.
  - intros entity parent Hreg Hp Hc Hparent.
    rewrite (inverseSideProperty_treeChildren _ _ _
               (wired_owner _ Hreg) Hfalsy Hp Hc).
    by rewrite Hparent.
  - intros Hp Hc. by apply inverseSideProperty_none.
Qed.
End Resolution.

(** ** The inverse relation *)

Lemma strict_equals_string_spec (x : JsValue) (s : string) :
  strict_equals_string x s = true <-> x = JsString s.
Proof.
  destruct x; simpl; try (split; [discriminate|intros [=]]).
  rewrite String.eqb_eq. split; [by intros ->|by intros [= ->]].
Qed.

Lemma findRelationWithPropertyName_Some entity inverse relation :
  EntityMetadata.findRelationWithPropertyName entity inverse = Some relation ->
  relation ∈ EntityMetadata.relations entity
  /\ inverse = JsString (propertyName relation).
Proof.
  intros Hfind. apply List.find_some in Hfind as [Hin Heq].
  split; [by apply list_elem_of_In | by apply strict_equals_string_spec].
Qed.

Lemma findRelationWithPropertyName_None entity inverse :
  EntityMetadata.findRelationWithPropertyName entity inverse = None
  <-> ~ has_relation_named entity inverse.
Proof.
  split.
  - intros Hfind (relation & Hin & Heq).
    apply list_elem_of_In in Hin.
    pose proof (List.find_none _ _ Hfind _ Hin) as Hno. simpl in Hno.
    apply strict_equals_string_spec in Heq. congruence.
  - intros Hno.
    destruct (EntityMetadata.findRelationWithPropertyName entity inverse)
      as [relation|] eqn:Hfind; [|done].
    destruct Hno. exists relation.
    by apply findRelationWithPropertyName_Some.
Qed.

Section InverseRelation.
Variable registry : Registry.
Variable this : RelationMetadata.
Variables entity related : EntityMetadata.t.
Variable inverse : JsValue.
Hypothesis Howner : owner_is registry this entity.
Hypothesis Hrelated : related_is registry this related.
Hypothesis Hinverse : inverseSideProperty registry this = Normal inverse.

Lemma inverseRelation_unfold :
  inverseRelation registry this
  = match EntityMetadata.findRelationWithPropertyName related inverse with
    | Some relation => Normal relation
    | None => Throw (inverse_side_not_found entity inverse)
    end.
Proof.
  unfold inverseRelation.
  rewrite (deref_related _ _ _ Hrelated), (deref_owner _ _ _ Howner).
  rewrite !Hinverse. cbn [mbind Completion_bind mret Completion_ret].
  by destruct (EntityMetadata.findRelationWithPropertyName _ _).
Qed.

(** C3. On a wired relation whose inverse property name is [inverse],
    [inverseRelation] throws iff the related entity has no relation with
    that property name; the error then names the owning entity and the
    inverse property; when there is such a relation, one is returned. *)
Theorem inverseRelation_fails_iff_absent :
  ((exists e, inverseRelation registry this = Throw e)
     <-> ~ has_relation_named related inverse)
  /\ (~ has_relation_named related inverse ->
        inverseRelation registry this
        = Throw (Error ("Inverse side was not found in the relation "
                        +:+ EntityMetadata.name entity +:+ "#"
                        +:+ ToString inverse)))
  /\ (has_relation_named related inverse ->
        exists relation,
          inverseRelation registry this = Normal relation
          /\ relation ∈ EntityMetadata.relations related
          /\ inverse = JsString (propertyName relation)).
Proof.
  rewrite inverseRelation_unfold.
  destruct (EntityMetadata.findRelationWithPropertyName related inverse)
    as [relation|] eqn:Hfind.
  - pose proof (findRelationWithPropertyName_Some _ _ _ Hfind) as [Hin Heq].
    assert (has_relation_named related inverse) as Hhas by (by exists relation).
    split; [|split].
    + split; [by intros [e [=]] | done].
    + done.
    + intros _. by exists relation.
  - apply findRelationWithPropertyName_None in Hfind.
    split; [|split].
    + split; [done | intros _; by eexists].
    + done.
    + done.
Qed.

(** [hasInverseSide] performs the same lookup and answers with a
    boolean. *)
Lemma hasInverseSide_iff :
  exists b, hasInverseSide registry this = Normal (JsBoolean b)
            /\ (b = true <-> has_relation_named related inverse).
Proof.
  unfold hasInverseSide. destruct Hrelated as (e & He & Hreg).
  rewrite He. unfold deref. rewrite Hreg, Hinverse. simpl.
  eexists; split; [done|].
  unfold EntityMetadata.hasRelationWithPropertyName.
  destruct (EntityMetadata.findRelationWithPropertyName related inverse)
    as [relation|] eqn:Hfind.
  - split; [|done]. intros _. exists relation.
    by apply findRelationWithPropertyName_Some.
  - apply findRelationWithPropertyName_None in Hfind. by split.
Qed.
End InverseRelation.

(** ** Which accessors can throw *)

Section Failure.
Variable registry : Registry.
Variable this : RelationMetadata.
Variables entity related : EntityMetadata.t.
Hypothesis Howner : owner_is registry this entity.
Hypothesis Hrelated : related_is registry this related.

(** On a wired relation the two column-name accessors return. *)
Lemma name_returns : exists n, name registry this = Normal n.
Proof.
  unfold name. rewrite (deref_owner _ _ _ Howner).
  destruct (joinColumn this) as [column|]; [|by eexists].
  destruct (JoinColumnMetadata.name column) as [n|]; [|by eexists].
  destruct (negb (n =? "")); by eexists.
Qed.

Lemma referencedColumnName_returns :
  exists n, referencedColumnName registry this = Normal n.
Proof.
  unfold referencedColumnName. rewrite (deref_related _ _ _ Hrelated).
  destruct (joinColumn this) as [column|]; [|by eexists].
  destruct (JoinColumnMetadata.referencedColumn column) as [referenced|];
    [|by eexists].
  destruct (ColumnMetadata.name referenced) as [n|]; [|by eexists].
  destruct (negb (n =? "")); by eexists.
Qed.

End Failure.

(** C6. [Folder] declares a tree parent through the [TreeParent] decorator
    and no tree-children relation.  On its wired [parent] relation
    [inverseSideProperty] does not return the empty string and
    [hasInverseSide] does not return [false]: both throw a [TypeError], the
    read of [propertyName] on the absent sibling. *)
Theorem treeParent_without_children_throws :
  owner_is Sample.registry Sample.folder_parent Sample.Folder
  /\ related_is Sample.registry Sample.folder_parent Sample.Folder
  /\ EntityMetadata.treeChildrenRelation Sample.Folder = None
  /\ inverseSideProperty Sample.registry Sample.folder_parent = Throw TypeError
  /\ hasInverseSide Sample.registry Sample.folder_parent = Throw TypeError.
Proof.
  repeat split; try reflexivity; exists 3; split; reflexivity.
Qed.

(** ** The statements on the sample data model *)

Lemma name_by_joinColumn_witness :
  name Sample.registry Sample.customer = Normal "customer_ref".
Proof.
  apply (proj1 (name_by_joinColumn Sample.registry Sample.customer Sample.Order
                  (ex_intro _ 1 (conj eq_refl eq_refl)))
           "customer_ref").
  exists Sample.customer_join. repeat split. discriminate.
Defined.

Lemma referencedColumnName_by_joinColumn_witness :
  referencedColumnName Sample.registry Sample.customer = Normal "uuid".
Proof.
  apply (proj1 (referencedColumnName_by_joinColumn Sample.registry
                  Sample.customer Sample.Customer
                  (ex_intro _ 2 (conj eq_refl eq_refl)))
           "uuid").
  exists Sample.customer_join, (ColumnMetadata.mk (Some "uuid") "uuid").
  repeat split. discriminate.
Defined.

Lemma inverseSideProperty_resolution_witness :
  inverseSideProperty Sample.registry Sample.parent = Normal (JsString "children")
  /\ inverseSideProperty Sample.registry Sample.customer
     = Normal (JsString "orders").
Proof.
  split.
  - refine (proj1 (proj2 (proj2
      (inverseSideProperty_resolution Sample.registry Sample.parent_args 0 0
         None None Sample.Category eq_refl (fun _ => eq_refl))) eq_refl)
      eq_refl Sample.children eq_refl).
  - exact (proj1
      (inverseSideProperty_resolution Sample.registry Sample.customer_args 1 2
         None (Some Sample.customer_join) Sample.Customer eq_refl
         (fun H => False_ind _ (Bool.diff_false_true H)))
      Sample.orders_of eq_refl).
Defined.

(** The declared literal [""] of a tree parent is not what
    [inverseSideProperty] returns. *)
Lemma inverseSideProperty_empty_literal_counterexample :
  RelationMetadataArgs.inverseSideProperty Sample.parent_empty_literal_args
  = Some (Literal "")
  /\ isTreeParent Sample.parent_empty_literal = true
  /\ inverseSideProperty Sample.registry Sample.parent_empty_literal
     = Normal (JsString "children")
  /\ inverseSideProperty Sample.registry Sample.parent_empty_literal
     <> Normal (JsString "").
Proof. repeat split; try reflexivity. discriminate. Qed.

Lemma empty_literal_not_stored_witness :
  _inverseSideProperty (constructor Sample.parent_empty_literal_args) = None
  /\ inverseSideProperty Sample.registry Sample.parent_empty_literal
     = Normal (JsString "children").
Proof.
  pose proof (empty_literal_not_stored Sample.registry
                Sample.parent_empty_literal_args 0 0 None None eq_refl)
    as (Hstored & _ & _ & Htree & _).
  split; [exact Hstored|].
  exact (Htree Sample.Category Sample.children eq_refl eq_refl eq_refl).
Defined.

Lemma inverseRelation_fails_iff_absent_witness :
  inverseRelation Sample.registry Sample.payer
  = Throw (Error "Inverse side was not found in the relation Order#payments")
  /\ exists relation,
       inverseRelation Sample.registry Sample.customer = Normal relation
       /\ relation ∈ EntityMetadata.relations Sample.Customer
       /\ JsString "orders" = JsString (propertyName relation).
Proof.
  split.
  - apply (proj1 (proj2
      (inverseRelation_fails_iff_absent Sample.registry Sample.payer
         Sample.Order Sample.Customer (JsString "payments")
         (ex_intro _ 1 (conj eq_refl eq_refl))
         (ex_intro _ 2 (conj eq_refl eq_refl)) eq_refl))).
    intros (relation & Hin & Heq).
    apply list_elem_of_singleton in Hin. subst relation. discriminate.
  - apply (proj2 (proj2
      (inverseRelation_fails_iff_absent Sample.registry Sample.customer
         Sample.Order Sample.Customer (JsString "orders")
         (ex_intro _ 1 (conj eq_refl eq_refl))
         (ex_intro _ 2 (conj eq_refl eq_refl)) eq_refl))).
    exists Sample.orders. split; [apply list_elem_of_singleton|]; reflexivity.
Defined.

(** * Further properties of the relation metadata *)

(** ** Construction *)

Section Flags.
Variable args : RelationMetadataArgs.t.
Let options := RelationMetadataArgs.options args.

(** A cascade flag of a constructed relation is [true] or not set, never
    [false]: it is [true] exactly when its own option or [cascadeAll] is
    [true]; an option that is [false] or left out leaves the flag
    undefined. *)
Theorem cascade_flags_true_or_undefined :
  (isCascadeInsert (constructor args) <> Some false
   /\ (isCascadeInsert (constructor args) = Some true
       <-> RelationOptions.cascadeInsert options = Some true
           \/ RelationOptions.cascadeAll options = Some true))
  /\ (isCascadeUpdate (constructor args) <> Some false
      /\ (isCascadeUpdate (constructor args) = Some true
          <-> RelationOptions.cascadeUpdate options = Some true
              \/ RelationOptions.cascadeAll options = Some true))
  /\ (isCascadeRemove (constructor args) <> Some false
      /\ (isCascadeRemove (constructor args) = Some true
          <-> RelationOptions.cascadeRemove options = Some true
              \/ RelationOptions.cascadeAll options = Some true)).
Proof.
  rewrite constructor_fields; unfold options; simpl.
  destruct (RelationOptions.cascadeInsert _) as [[]|],
           (RelationOptions.cascadeUpdate _) as [[]|],
           (RelationOptions.cascadeRemove _) as [[]|],
           (RelationOptions.cascadeAll _) as [[]|]; simpl;
    intuition congruence.
Qed.
End Flags.

(** A relation that has been constructed and not yet wired: [type] already
    answers with the class that the declaration's thunk returns, [isOwning]
    holds exactly for a many-to-one relation, [hasInverseSide] is
    [undefined], and [name], [referencedColumnName] and [inverseRelation]
    throw a [TypeError]. *)
Theorem constructed_before_wiring (registry : Registry)
    (args : RelationMetadataArgs.t) :
  type (constructor args) = Normal (RelationMetadataArgs.type args tt)
  /\ ToBoolean (isOwning (constructor args))
     = bool_decide (RelationMetadataArgs.relationType args = MANY_TO_ONE)
  /\ hasInverseSide registry (constructor args) = Normal JsUndefined
  /\ name registry (constructor args) = Throw TypeError
  /\ referencedColumnName registry (constructor args) = Throw TypeError
  /\ inverseRelation registry (constructor args) = Throw TypeError.
Proof.
  rewrite constructor_fields. repeat split.
  unfold isOwning, isManyToOne, isManyToMany, isOneToOne; simpl.
  by destruct (RelationMetadataArgs.relationType args).
Qed.

(** ** The tree-parent decorator *)

(** Whatever the options, the class and the property, the relation that the
    [TreeParent] decorator declares is a many-to-one relation of the class to
    itself, flagged as tree parent only, without inverse-side specifier, and
    it is an owning side ([isOwning] is the boolean [true]) whatever gets
    attached to it. *)
Theorem TreeParent_relation (options : option RelationOptions.t)
    (object_constructor : Class) (property : string)
    (reflectedType : option ReflectedType.t) :
  let this :=
    constructor (TreeParent options object_constructor property reflectedType) in
  relationType this = MANY_TO_ONE
  /\ isTreeParent this = true /\ isTreeChildren this = false
  /\ _inverseSideProperty this = None
  /\ target this = object_constructor /\ propertyName this = property
  /\ type this = Normal object_constructor
  /\ propertyType this = reflectedType
  /\ forall owner related table column,
       isOwning (wire owner related table column this) = JsBoolean true.
Proof.
  intros this. subst this. rewrite constructor_fields.
  repeat split.
Qed.

(** Wired to its entity, a relation declared by [TreeParent] has as inverse
    side the property name of the tree-children relation designated on that
    entity, and the read throws a [TypeError] when the entity designates
    none.  The entity consulted is the owning one, whatever the related
    reference is. *)
Theorem TreeParent_inverseSideProperty (registry : Registry)
    (options : option RelationOptions.t) (object_constructor : Class)
    (property : string) (reflectedType : option ReflectedType.t)
    (owner related : EntityRef) (table : option JoinTableMetadata.t)
    (column : option JoinColumnMetadata.t) (entity : EntityMetadata.t) :
  registry !! owner = Some entity ->
  inverseSideProperty registry
    (wire owner related table column
       (constructor
          (TreeParent options object_constructor property reflectedType)))
  = match EntityMetadata.treeChildrenRelation entity with
    | Some children => Normal (JsString (propertyName children))
    | None => Throw TypeError
    end.
Proof.
  intros Hreg.
  apply inverseSideProperty_treeParent.
  - exists owner. split; [|done]. by rewrite wire_fields.
  - by rewrite wire_fields, constructor_fields.
  - by rewrite wire_fields, constructor_fields.
Qed.

Lemma TreeParent_inverseSideProperty_witness :
  inverseSideProperty Sample.registry Sample.parent
  = Normal (JsString "children").
Proof.
  exact (TreeParent_inverseSideProperty Sample.registry None "Category"
           "parent" (Some (ReflectedType.mk (Some "Category"))) 0 0 None None
           Sample.Category eq_refl).
Defined.

(** ** Accessors before the entities are attached *)

(** Without an owning entity [name] throws a [TypeError], with or without a
    join column.  Without a related entity [referencedColumnName] still
    returns the name of the column that the join column references, when
    there is one, and throws a [TypeError] when it has to fall back on the
    primary column. *)
Theorem column_names_without_entities (registry : Registry)
    (this : RelationMetadata) :
  (entityMetadata this = None -> name registry this = Throw TypeError)
  /\ (inverseEntityMetadata this = None ->
        (forall n, referenced_column_named this n ->
           referencedColumnName registry this = Normal n)
        /\ ((forall n, ~ referenced_column_named this n) ->
              referencedColumnName registry this = Throw TypeError)).
Proof.
  split.
  - intros Hnone. unfold name. rewrite Hnone. simpl.
    destruct (joinColumn this) as [column|]; [|done].
    destruct (JoinColumnMetadata.name column) as [n|]; [|done].
    by destruct (negb (n =? "")).
  - intros Hnone. unfold referencedColumnName. rewrite Hnone. simpl. split.
    + intros n (column & referenced & -> & -> & -> & Hn).
      apply String.eqb_neq in Hn. by rewrite Hn.
    + intros Hunnamed.
      destruct (joinColumn this) as [column|] eqn:Hcol; [|done].
      destruct (JoinColumnMetadata.referencedColumn column)
        as [referenced|] eqn:Href; [|done].
      destruct (ColumnMetadata.name referenced) as [n|] eqn:Hname; [|done].
      destruct (String.eqb_spec n "") as [->|Hn]; [done|].
      destruct (Hunnamed n). by exists column, referenced.
Qed.

Lemma column_names_without_entities_witness :
  name Sample.registry (constructor Sample.customer_args) = Throw TypeError
  /\ referencedColumnName Sample.registry Unwired.customer = Normal "uuid".
Proof.
  split.
  - exact (proj1 (column_names_without_entities Sample.registry
                    (constructor Sample.customer_args)) eq_refl).
  - apply (proj1 (proj2 (column_names_without_entities Sample.registry
                           Unwired.customer) eq_refl) "uuid").
    exists Sample.customer_join, (ColumnMetadata.mk (Some "uuid") "uuid").
    repeat split. discriminate.
Defined.

(** A stored specifier cannot be resolved without the related entity:
    [computeInverseSide] builds the properties map of the related entity
    before it looks at the specifier, so [inverseSideProperty] throws a
    [TypeError] for a literal name as it does for a resolver. *)
Theorem inverseSideProperty_needs_related (registry : Registry)
    (this : RelationMetadata) (inverseSide : PropertyTypeInFunction) :
  _inverseSideProperty this = Some inverseSide ->
  truthy_inverseSide (Some inverseSide) = true ->
  inverseEntityMetadata this = None ->
  inverseSideProperty registry this = Throw TypeError.
Proof.
  intros Hstored Htruthy Hnone. unfold inverseSideProperty.
  rewrite Hstored, Htruthy. unfold computeInverseSide. by rewrite Hnone.
Qed.

Lemma inverseSideProperty_needs_related_witness :
  inverseSideProperty Sample.registry (constructor Sample.orders_args)
  = Throw TypeError.
Proof.
  exact (inverseSideProperty_needs_related Sample.registry
           (constructor Sample.orders_args) (Literal "customer")
           eq_refl eq_refl eq_refl).
Defined.

(** ** Lazy relations, in general *)

(** [isLazy] is truthy exactly when a reflected type is present, has a name,
    and that name lower-cases to ["promise"]; without a reflected type or
    without a name the value is [undefined]. *)
Theorem isLazy_truthy_iff (this : RelationMetadata) :
  (ToBoolean (isLazy this) = true
   <-> exists reflected n,
         propertyType this = Some reflected
         /\ ReflectedType.name reflected = Some n
         /\ toLowerCase n = "promise")
  /\ ((propertyType this = None
       \/ exists reflected,
            propertyType this = Some reflected
            /\ ReflectedType.name reflected = None) ->
        isLazy this = JsUndefined).
Proof.
  unfold isLazy. split.
  - destruct (propertyType this) as [reflected|]; simpl.
    + destruct (ReflectedType.name reflected) as [n|] eqn:Hname; simpl.
      * rewrite js_and_string_boolean.
        destruct (String.eqb_spec n "") as [->|Hn]; simpl.
        -- split; [done|]. intros (r & m & [= <-] & Hm & Hlow).
           rewrite Hname in Hm. injection Hm as <-. discriminate Hlow.
        -- rewrite String.eqb_eq. split.
           ++ intros Hlow. by exists reflected, n.
           ++ intros (r & m & [= <-] & Hm & Hlow). congruence.
      * split; [done|]. intros (r & n & [= <-] & Hn & _). congruence.
    + split; [done|]. by intros (r & n & [=] & _).
  - intros [-> | (reflected & -> & ->)]; reflexivity.
Qed.

(** ** The inverse relation, continued *)

(** Among relations with pairwise distinct property names, the lookup by the
    property name of one of them finds that one. *)
Lemma findRelationWithPropertyName_unique entity relation :
  relation ∈ EntityMetadata.relations entity ->
  NoDup (propertyName <$> EntityMetadata.relations entity) ->
  EntityMetadata.findRelationWithPropertyName entity
    (JsString (propertyName relation)) = Some relation.
Proof.
  unfold EntityMetadata.findRelationWithPropertyName.
  induction (EntityMetadata.relations entity) as [|first others IH]; simpl.
  - intros Hin. inversion Hin.
  - intros Hin Hdistinct. apply NoDup_cons in Hdistinct as [Hfresh Hothers].
    destruct (String.eqb_spec (propertyName relation) (propertyName first))
      as [Hsame|Hother].
    + apply elem_of_cons in Hin as [->|Hin]; [done|].
      destruct Hfresh. rewrite <- Hsame. by apply list_elem_of_fmap_2.
    + apply elem_of_cons in Hin as [->|Hin]; [done|]. by apply IH.
Qed.

Section Lookup.
Variable registry : Registry.
Variable this : RelationMetadata.
Variables entity related : EntityMetadata.t.
Hypothesis Howner : owner_is registry this entity.
Hypothesis Hrelated : related_is registry this related.

(** An exception of [inverseSideProperty] is the exception of
    [hasInverseSide] and of [inverseRelation]: [inverseRelation] throws a
    [TypeError], not its own error, where the inverse side cannot be
    computed. *)
Theorem inverse_accessors_propagate (e : Exception) :
  inverseSideProperty registry this = Throw e ->
  hasInverseSide registry this = Throw e
  /\ inverseRelation registry this = Throw e.
Proof.
  intros Hthrow. unfold hasInverseSide, inverseRelation.
  rewrite (deref_related _ _ _ Hrelated), Hthrow.
  destruct Hrelated as (ref & -> & _). done.
Qed.

(** [hasInverseSide] tells whether [inverseRelation] returns: it is [true]
    exactly when [inverseRelation] returns a relation, and [false] exactly
    when [inverseRelation] throws its error. *)
Theorem hasInverseSide_agrees_with_inverseRelation (inverse : JsValue) :
  inverseSideProperty registry this = Normal inverse ->
  (hasInverseSide registry this = Normal (JsBoolean true)
   <-> exists relation, inverseRelation registry this = Normal relation)
  /\ (hasInverseSide registry this = Normal (JsBoolean false)
      <-> inverseRelation registry this
          = Throw (inverse_side_not_found entity inverse)).
Proof.
  intros Hinverse.
  rewrite (inverseRelation_unfold _ _ _ _ _ Howner Hrelated Hinverse).
  unfold hasInverseSide. rewrite (deref_related _ _ _ Hrelated), Hinverse.
  destruct Hrelated as (ref & -> & _).
  cbn [mbind Completion_bind mret Completion_ret].
  unfold EntityMetadata.hasRelationWithPropertyName.
  destruct (EntityMetadata.findRelationWithPropertyName related inverse)
    as [relation|].
  - split; split; try done. intros _. by exists relation.
  - split; split; try done. by intros [relation [=]].
Qed.

(** When the property names of the related entity are pairwise distinct,
    [inverseRelation] returns the very relation of the related entity that
    carries the computed name. *)
Theorem inverseRelation_returns_named (relation : RelationMetadata) :
  relation ∈ EntityMetadata.relations related ->
  NoDup (propertyName <$> EntityMetadata.relations related) ->
  inverseSideProperty registry this = Normal (JsString (propertyName relation)) ->
  inverseRelation registry this = Normal relation.
Proof.
  intros Hin Hdistinct Hinverse.
  rewrite (inverseRelation_unfold _ _ _ _ _ Howner Hrelated Hinverse).
  by rewrite findRelationWithPropertyName_unique.
Qed.

(** A relation declared without inverse side and without tree flag is
    unidirectional: its inverse side is the empty string, and as long as no
    relation of the related entity has the empty property name,
    [hasInverseSide] is [false] and [inverseRelation] throws, its message
    ending in the owning entity's name and ["#"]. *)
Theorem unidirectional_relation :
  truthy_inverseSide (_inverseSideProperty this) = false ->
  isTreeParent this = false -> isTreeChildren this = false ->
  (forall relation, relation ∈ EntityMetadata.relations related ->
     propertyName relation <> "") ->
  inverseSideProperty registry this = Normal (JsString "")
  /\ hasInverseSide registry this = Normal (JsBoolean false)
  /\ inverseRelation registry this
     = Throw (Error ("Inverse side was not found in the relation "
                     +:+ EntityMetadata.name entity +:+ "#")).
Proof.
  intros Hspec Hp Hc Hnamed.
  pose proof (inverseSideProperty_none registry this Hspec Hp Hc) as Hinverse.
  assert (EntityMetadata.findRelationWithPropertyName related (JsString "")
          = None) as Hfind.
  { apply findRelationWithPropertyName_None.
    intros (relation & Hin & [= Hempty]). by destruct (Hnamed relation Hin). }
  split; [done|]. split.
  - unfold hasInverseSide. rewrite (deref_related _ _ _ Hrelated), Hinverse.
    destruct Hrelated as (ref & -> & _).
    cbn [mbind Completion_bind mret Completion_ret].
    unfold EntityMetadata.hasRelationWithPropertyName. by rewrite Hfind.
  - rewrite (inverseRelation_unfold _ _ _ _ _ Howner Hrelated Hinverse), Hfind.
    reflexivity.
Qed.

(** On a wired relation both column-name accessors return. *)
Theorem column_names_return :
  (exists n, name registry this = Normal n)
  /\ (exists n, referencedColumnName registry this = Normal n).
Proof.
  split.
  - exact (name_returns _ _ _ Howner).
  - exact (referencedColumnName_returns _ _ _ Hrelated).
Qed.
End Lookup.

(** In a tree entity whose designated tree-parent and tree-children
    relations are its own, declared without inverse side, each of the two is
    the inverse relation of the other. *)
Theorem tree_relations_are_mutual_inverses (registry : Registry)
    (ref : EntityRef) (entity : EntityMetadata.t)
    (parent children : RelationMetadata) :
  registry !! ref = Some entity ->
  EntityMetadata.treeParentRelation entity = Some parent ->
  EntityMetadata.treeChildrenRelation entity = Some children ->
  parent ∈ EntityMetadata.relations entity ->
  children ∈ EntityMetadata.relations entity ->
  NoDup (propertyName <$> EntityMetadata.relations entity) ->
  entityMetadata parent = Some ref -> inverseEntityMetadata parent = Some ref ->
  entityMetadata children = Some ref ->
  inverseEntityMetadata children = Some ref ->
  truthy_inverseSide (_inverseSideProperty parent) = false ->
  truthy_inverseSide (_inverseSideProperty children) = false ->
  isTreeParent parent = true ->
  isTreeParent children = false -> isTreeChildren children = true ->
  inverseRelation registry parent = Normal children
  /\ inverseRelation registry children = Normal parent.
Proof.
  intros Hreg Hparent Hchildren Hp_in Hc_in Hdistinct
    Hp_owner Hp_related Hc_owner Hc_related Hp_spec Hc_spec Hp_flag
    Hc_notparent Hc_flag.
  assert (owner_is registry parent entity) as Hp_o by (by exists ref).
  assert (related_is registry parent entity) as Hp_r by (by exists ref).
  assert (owner_is registry children entity) as Hc_o by (by exists ref).
  assert (related_is registry children entity) as Hc_r by (by exists ref).
  pose proof (inverseSideProperty_treeParent _ _ _ Hp_o Hp_spec Hp_flag)
    as Hp_inverse.
  pose proof (inverseSideProperty_treeChildren _ _ _ Hc_o Hc_spec
                Hc_notparent Hc_flag) as Hc_inverse.
  rewrite Hchildren in Hp_inverse. rewrite Hparent in Hc_inverse.
  rewrite (inverseRelation_unfold _ _ _ _ _ Hp_o Hp_r Hp_inverse).
  rewrite (inverseRelation_unfold _ _ _ _ _ Hc_o Hc_r Hc_inverse).
  by rewrite !findRelationWithPropertyName_unique.
Qed.

(** ** The further properties on the sample data model *)

Lemma inverse_accessors_propagate_witness :
  hasInverseSide Sample.registry Sample.folder_parent = Throw TypeError
  /\ inverseRelation Sample.registry Sample.folder_parent = Throw TypeError.
Proof.
  exact (inverse_accessors_propagate Sample.registry Sample.folder_parent
           Sample.Folder (ex_intro _ 3 (conj eq_refl eq_refl))
           TypeError eq_refl).
Defined.

Lemma hasInverseSide_agrees_with_inverseRelation_witness :
  hasInverseSide Sample.registry Sample.customer = Normal (JsBoolean true)
  /\ hasInverseSide Sample.registry Sample.payer = Normal (JsBoolean false).
Proof.
  split.
  - apply (proj1 (hasInverseSide_agrees_with_inverseRelation Sample.registry
                    Sample.customer Sample.Order Sample.Customer
                    (ex_intro _ 1 (conj eq_refl eq_refl))
                    (ex_intro _ 2 (conj eq_refl eq_refl))
                    (JsString "orders") eq_refl)).
    by exists Sample.orders.
  - apply (proj2 (hasInverseSide_agrees_with_inverseRelation Sample.registry
                    Sample.payer Sample.Order Sample.Customer
                    (ex_intro _ 1 (conj eq_refl eq_refl))
                    (ex_intro _ 2 (conj eq_refl eq_refl))
                    (JsString "payments") eq_refl)).
    reflexivity.
Defined.

(** [Order.customer] and [Customer.orders] are each other's inverse. *)
Lemma inverseRelation_returns_named_witness :
  inverseRelation Sample.registry Sample.customer = Normal Sample.orders
  /\ inverseRelation Sample.registry Sample.orders = Normal Sample.customer.
Proof.
  split.
  - apply (inverseRelation_returns_named Sample.registry Sample.customer
             Sample.Order Sample.Customer
             (ex_intro _ 1 (conj eq_refl eq_refl))
             (ex_intro _ 2 (conj eq_refl eq_refl)) Sample.orders).
    + by left.
    + compute_done.
    + reflexivity.
  - apply (inverseRelation_returns_named Sample.registry Sample.orders
             Sample.Customer Sample.Order
             (ex_intro _ 2 (conj eq_refl eq_refl))
             (ex_intro _ 1 (conj eq_refl eq_refl)) Sample.customer).
    + by left.
    + compute_done.
    + reflexivity.
Defined.

Lemma unidirectional_relation_witness :
  inverseSideProperty Sample.registry Unwired.supplier = Normal (JsString "")
  /\ hasInverseSide Sample.registry Unwired.supplier = Normal (JsBoolean false)
  /\ inverseRelation Sample.registry Unwired.supplier
     = Throw (Error "Inverse side was not found in the relation Order#").
Proof.
  apply (unidirectional_relation Sample.registry Unwired.supplier
           Sample.Order Sample.Customer
           (ex_intro _ 1 (conj eq_refl eq_refl))
           (ex_intro _ 2 (conj eq_refl eq_refl)) eq_refl eq_refl eq_refl).
  intros relation Hin. apply list_elem_of_singleton in Hin. by subst relation.
Defined.

Lemma column_names_return_witness :
  (exists n, name Sample.registry Sample.payer = Normal n)
  /\ (exists n, referencedColumnName Sample.registry Sample.payer = Normal n).
Proof.
  exact (column_names_return Sample.registry Sample.payer
           Sample.Order Sample.Customer
           (ex_intro _ 1 (conj eq_refl eq_refl))
           (ex_intro _ 2 (conj eq_refl eq_refl))).
Defined.

Lemma tree_relations_are_mutual_inverses_witness :
  inverseRelation Sample.registry Sample.parent = Normal Sample.children
  /\ inverseRelation Sample.registry Sample.children = Normal Sample.parent.
Proof.
  apply (tree_relations_are_mutual_inverses Sample.registry 0 Sample.Category);
    try reflexivity.
  - by left.
  - right. by left.
  - compute_done.
Defined.


Lemma isLazy_truthy_iff_witness :
  ToBoolean (isLazy (constructor
                       (TreeParent None "Category" "parent"
                          (Some (ReflectedType.mk (Some "Promise")))))) = true
  /\ isLazy (constructor (TreeParent None "Category" "parent" None))
     = JsUndefined.
Proof.
  split.
  - apply (isLazy_truthy_iff
             (constructor
                (TreeParent None "Category" "parent"
                   (Some (ReflectedType.mk (Some "Promise")))))).
    by exists (ReflectedType.mk (Some "Promise")), "Promise".
  - apply (isLazy_truthy_iff
             (constructor (TreeParent None "Category" "parent" None))).
    by left.
Defined.
